(** * web-gcs backend: the three Flask handlers of backend/app.py

    The backend holds one global [vehicle] handle and forwards connect,
    disconnect and status requests to an external vehicle driver
    (DroneKit).  This development embeds the handlers as computations over
    an explicit world (the module globals, the log and the trace of driver
    calls) in a monad that threads the world and Python exceptions, and
    checks the link-manager specification against them. *)

From Stdlib Require Import String List ZArith QArith Bool Lia.
Import ListNotations.
Local Open Scope string_scope.
Local Open Scope list_scope.

(** ** Python values and exceptions *)

(** Scalars that the driver hands back and that the handlers pass on
    unchanged: [None], booleans, integers, floats (as rationals) and
    strings. *)
Inductive pyval : Type :=
| PNone
| PBool (b : bool)
| PInt (z : Z)
| PFloat (q : Q)
| PStr (s : string).

(** An exception object, described by what the handlers observe of it: the
    two [isinstance] tests made by the [except] clauses of [connect_drone]
    and the text of [str(e)].  Every exception of the model is an instance
    of [Exception]; interpreter signals below [BaseException] only
    (KeyboardInterrupt, SystemExit) are outside the model. *)
Record exn : Type := mkExn {
  is_APIException : bool;
  is_TimeoutError : bool;
  exn_str : string
}.

(** Result of evaluating a Python expression: a value, or a raised
    exception. *)
Inductive py (A : Type) : Type :=
| Val (a : A)
| Raise (e : exn).
Arguments Val {A} a.
Arguments Raise {A} e.

Definition py_bind {A B : Type} (c : py A) (k : A -> py B) : py B :=
  match c with
  | Val a => k a
  | Raise e => Raise e
  end.

(** [x.attr] where [x] is [None]. *)
Definition AttributeError (attr : string) : exn :=
  mkExn false false ("'NoneType' object has no attribute '" ++ attr ++ "'").

(** ** The driver objects, as the handlers read them

    A driver object is modelled by what its attribute reads answer during
    one handler call.  An attribute that holds an object or [None] is an
    [option]; driver objects are truthy and [None] is falsy. *)

Record VehicleMode : Type := { name : pyval }.

Record LocationGlobalRelative : Type := { lat : pyval; lon : pyval; alt : pyval }.

Record Locations : Type := {
  global_relative_frame : py (option LocationGlobalRelative)
}.

Record Battery : Type := { voltage : pyval }.

Record Vehicle : Type := {
  vid : nat;                          (* identity of the session object *)
  mode : py (option VehicleMode);
  armed : py pyval;
  location : py Locations;
  airspeed : py pyval;
  groundspeed : py pyval;
  heading : py pyval;
  battery : py (option Battery);
  close : py unit                     (* outcome of vehicle.close() *)
}.

(** Calls made to the driver, in order. *)
Inductive DriverCall : Type :=
| CallConnect (ip : string) (wait_ready : bool) (timeout : Z)
| CallClose (session : nat).

(** The driver's [connect]: the outcome may depend on the calls made so far
    (their number), so that successive attempts can differ. *)
Record Driver : Type := {
  connect : nat -> string -> bool -> Z -> py (option Vehicle)
}.

(** ** Logging, JSON and responses *)

Inductive Level : Type := INFO | ERROR.

(** A formatted string: literal text and [{value}] replacement fields. *)
Inductive frag : Type :=
| Lit (s : string)
| Fmt (v : pyval).

Record LogRecord : Type := { level : Level; message : list frag }.

#[local] Unset Elimination Schemes.
Inductive json : Type :=
| JNull
| JBool (b : bool)
| JInt (z : Z)
| JFloat (q : Q)
| JStr (s : string)
| JObj (fields : list (string * json)).
#[local] Set Elimination Schemes.

(** What [jsonify] makes of a scalar. *)
Definition to_json (v : pyval) : json :=
  match v with
  | PNone => JNull
  | PBool b => JBool b
  | PInt z => JInt z
  | PFloat q => JFloat q
  | PStr s => JStr s
  end.

Fixpoint assoc (k : string) (l : list (string * json)) : option json :=
  match l with
  | [] => None
  | (k', v) :: r => if String.eqb k k' then Some v else assoc k r
  end.

Definition json_get (k : string) (j : json) : option json :=
  match j with
  | JObj fields => assoc k fields
  | _ => None
  end.

Record Response : Type := { body : json; status_code : Z }.

(** [jsonify(d)] and [jsonify(d), code]. *)
Definition jsonify (fields : list (string * json)) : Response :=
  {| body := JObj fields; status_code := 200 |}.

Definition jsonify_code (fields : list (string * json)) (code : Z) : Response :=
  {| body := JObj fields; status_code := code |}.

(** The request of a handler call: its JSON body, if any. *)
Definition Request : Type := option json.

(** ** The world and the handler monad *)

Record World : Type := mkWorld {
  vehicle : option Vehicle;           (* global vehicle *)
  connection_string : string;         (* global connection_string *)
  log : list LogRecord;               (* records emitted so far *)
  driver_calls : list DriverCall      (* driver calls made so far *)
}.

(** Module initialisation (lines 16-17). *)
Definition init : World :=
  {| vehicle := None;
     connection_string := "udp:127.0.0.1:14550";
     log := [];
     driver_calls := [] |}.

(** A statement sequence: runs on a world, yields a value or raises, and
    leaves a world behind in both cases (assignments and log records made
    before a raise stay). *)
Definition M (A : Type) : Type := World -> py A * World.

Definition ret {A : Type} (a : A) : M A := fun w => (Val a, w).

Definition bind {A B : Type} (c : M A) (k : A -> M B) : M B :=
  fun w =>
    match c w with
    | (Val a, w') => k a w'
    | (Raise e, w') => (Raise e, w')
    end.

Definition lift {A : Type} (c : py A) : M A := fun w => (c, w).

Definition try_except {A : Type} (c : M A) (h : exn -> M A) : M A :=
  fun w =>
    match c w with
    | (Val a, w') => (Val a, w')
    | (Raise e, w') => h e w'
    end.

Declare Scope py_scope.
Delimit Scope py_scope with py.
Notation "x <- c ;; k" := (bind c (fun x => k))
  (at level 61, c at next level, right associativity) : py_scope.
Notation "c ;; k" := (bind c (fun _ => k))
  (at level 61, right associativity) : py_scope.
Notation "x <~ c ;; k" := (py_bind c (fun x => k))
  (at level 61, c at next level, right associativity) : py_scope.
Local Open Scope py_scope.

Definition get_vehicle : M (option Vehicle) := fun w => (Val (vehicle w), w).

Definition set_vehicle (v : option Vehicle) : M unit :=
  fun w => (Val tt, mkWorld v (connection_string w) (log w) (driver_calls w)).

Definition get_connection_string : M string :=
  fun w => (Val (connection_string w), w).

Definition emit (l : Level) (m : list frag) : M unit :=
  fun w => (Val tt,
            mkWorld (vehicle w) (connection_string w)
                    (log w ++ [{| level := l; message := m |}])
                    (driver_calls w)).

Definition logging_info (m : list frag) : M unit := emit INFO m.
Definition logging_error (m : list frag) : M unit := emit ERROR m.

Definition record_call (c : DriverCall) : M unit :=
  fun w => (Val tt,
            mkWorld (vehicle w) (connection_string w) (log w)
                    (driver_calls w ++ [c])).

(** [connect(ip, wait_ready=.., timeout=..)]: the call is made and its
    outcome, a session, [None] or an exception, comes back when the driver
    is done. *)
Definition call_connect (d : Driver) (ip : string) (wr : bool) (t : Z)
  : M (py (option Vehicle)) :=
  fun w => (Val (connect d (length (driver_calls w)) ip wr t),
            mkWorld (vehicle w) (connection_string w) (log w)
                    (driver_calls w ++ [CallConnect ip wr t])).

(** [v.close()]. *)
Definition call_close (v : Vehicle) : M unit :=
  record_call (CallClose (vid v)) ;; lift (close v).

(** ** Attribute reads *)

(** [vehicle.mode.name] *)
Definition mode_name (v : Vehicle) : py pyval :=
  m <~ mode v ;;
  match m with
  | Some vm => Val (name vm)
  | None => Raise (AttributeError "name")
  end.

(** [vehicle.location.global_relative_frame] *)
Definition frame (v : Vehicle) : py (option LocationGlobalRelative) :=
  l <~ location v ;; global_relative_frame l.

(** [vehicle.location.global_relative_frame.F
       if vehicle.location.global_relative_frame else dflt]:
    the condition is evaluated first, then the chain is read again. *)
Definition frame_field (F : LocationGlobalRelative -> pyval) (attr : string)
    (dflt : pyval) (v : Vehicle) : py pyval :=
  c <~ frame v ;;
  match c with
  | Some _ =>
      f <~ frame v ;;
      match f with
      | Some g => Val (F g)
      | None => Raise (AttributeError attr)
      end
  | None => Val dflt
  end.

(** [vehicle.battery.voltage if vehicle.battery else None] *)
Definition battery_voltage (v : Vehicle) : py pyval :=
  c <~ battery v ;;
  match c with
  | Some _ =>
      b <~ battery v ;;
      match b with
      | Some bt => Val (voltage bt)
      | None => Raise (AttributeError "voltage")
      end
  | None => Val PNone
  end.

(** ** Responses of the handlers *)

Definition success_message (m : string) : Response :=
  jsonify [("status", JStr "success"); ("message", JStr m)].

Definition error_message (m : string) : Response :=
  jsonify_code [("status", JStr "error"); ("message", JStr m)] 500.

Definition success_data (d : list (string * json)) : Response :=
  jsonify [("status", JStr "success"); ("data", JObj d)].

(** ** connect_drone (lines 29-71) *)

(** The [except] clauses, tried in order (lines 60-71). *)
Definition connect_except (e : exn) : M Response :=
  if is_APIException e then
    logging_error [Lit "DroneKit API Exception: "; Fmt (PStr (exn_str e))] ;;
    set_vehicle None ;;
    ret (error_message ("DroneKit API Error: " ++ exn_str e))
  else if is_TimeoutError e then
    logging_error [Lit "Connection timed out: "; Fmt (PStr (exn_str e))] ;;
    set_vehicle None ;;
    ret (error_message "Connection timed out after 60 seconds.")
  else
    logging_error [Lit "An unexpected error occurred during connection: ";
                   Fmt (PStr (exn_str e))] ;;
    set_vehicle None ;;
    ret (error_message ("Unexpected Error: " ++ exn_str e)).

(** Lines 35-47 up to the point where [connect(...)] has been called and
    has answered: either the handler has already replied, or the outcome of
    the driver call is in hand and not yet assigned. *)
Definition connect_start (d : Driver) (request : Request)
  : M (Response + py (option Vehicle)) :=
  v <- get_vehicle ;;
  match v with
  | Some _ =>
      logging_info [Lit "Already connected."] ;;
      ret (inl (success_message "Already connected"))
  | None =>
      cs <- get_connection_string ;;
      logging_info [Lit "Attempting connection to "; Fmt (PStr cs); Lit "..."] ;;
      r <- call_connect d cs true 60 ;;
      ret (inr r)
  end.

(** The rest of the [try] statement (lines 44-71) once the driver call has
    answered with [r]. *)
Definition connect_resume (r : py (option Vehicle)) : M Response :=
  try_except
    (x <- lift r ;;
     set_vehicle x ;;
     v <- get_vehicle ;;
     match v with
     | Some vh =>
         logging_info [Lit "Connection Successful!"] ;;
         n <- lift (mode_name vh) ;;
         logging_info [Lit "  Mode: "; Fmt n] ;;
         a <- lift (armed vh) ;;
         logging_info [Lit "  Armed: "; Fmt a] ;;
         h <- lift (frame_field alt "alt" (PStr "N/A") vh) ;;
         logging_info [Lit "  Altitude: "; Fmt h] ;;
         ret (success_message "Connected to Vehicle")
     | None =>
         logging_error [Lit "Connection attempt returned None."] ;;
         set_vehicle None ;;
         ret (error_message "Failed to connect (vehicle object is None)")
     end)
    connect_except.

Definition connect_drone (d : Driver) (request : Request) : M Response :=
  x <- connect_start d request ;;
  match x with
  | inl resp => ret resp
  | inr r => connect_resume r
  end.

(** ** disconnect_drone (lines 73-85) *)

Definition disconnect_drone : M Response :=
  v <- get_vehicle ;;
  match v with
  | Some vh =>
      logging_info [Lit "Closing vehicle connection..."] ;;
      call_close vh ;;
      set_vehicle None ;;
      logging_info [Lit "Vehicle connection closed."] ;;
      ret (success_message "Disconnected")
  | None =>
      logging_info [Lit "No active vehicle connection to disconnect."] ;;
      ret (success_message "Already disconnected")
  end.

(** ** get_status (lines 89-111) *)

(** The [status] dictionary (lines 94-105); its values are evaluated in the
    order they are written. *)
Definition status_dict (v : Vehicle) : py (list (string * json)) :=
  m <~ mode_name v ;;
  a <~ armed v ;;
  la <~ frame_field lat "lat" PNone v ;;
  lo <~ frame_field lon "lon" PNone v ;;
  al <~ frame_field alt "alt" PNone v ;;
  asp <~ airspeed v ;;
  gsp <~ groundspeed v ;;
  hd <~ heading v ;;
  bv <~ battery_voltage v ;;
  Val [("is_connected", JBool true);
       ("mode", to_json m);
       ("armed", to_json a);
       ("lat", to_json la);
       ("lon", to_json lo);
       ("alt", to_json al);
       ("airspeed", to_json asp);
       ("groundspeed", to_json gsp);
       ("heading", to_json hd);
       ("battery_voltage", to_json bv)].

Definition get_status : M Response :=
  v <- get_vehicle ;;
  match v with
  | Some vh =>
      try_except
        (status <- lift (status_dict vh) ;;
         ret (success_data status))
        (fun e =>
           logging_error [Lit "Error fetching status: "; Fmt (PStr (exn_str e))] ;;
           ret (error_message ("Error fetching status: " ++ exn_str e)))
  | None => ret (success_data [("is_connected", JBool false)])
  end.

(** ** Requests and runs *)

Inductive Call : Type :=
| Connect (request : Request)
| Disconnect
| Status.

Definition handle (d : Driver) (c : Call) : M Response :=
  match c with
  | Connect request => connect_drone d request
  | Disconnect => disconnect_drone
  | Status => get_status
  end.

(** The world after serving the calls one after the other; a call that
    ends in an uncaught exception leaves its world to the next one. *)
Fixpoint serve (d : Driver) (cs : list Call) (w : World) : World :=
  match cs with
  | [] => w
  | c :: r => serve d r (snd (handle d c w))
  end.

Inductive reachable (d : Driver) : World -> Prop :=
| reach_init : reachable d init
| reach_step c w : reachable d w -> reachable d (snd (handle d c w)).

(** ** Link states

    The specification speaks of four link states.  The source keeps no state
    variable besides the handle: [get_status] reports a held handle as
    [is_connected: True] and an empty one as [is_connected: False], and
    [disconnect_drone] answers "Already disconnected" on an empty one. *)
Inductive LinkState : Type := Disconnected | Connecting | Connected | Failed.

Definition state_of (w : World) : LinkState :=
  match vehicle w with
  | Some _ => Connected
  | None => Disconnected
  end.

(** ** Sample sessions and drivers *)

Definition home : LocationGlobalRelative :=
  {| lat := PFloat (-35363261 # 1000000);
     lon := PFloat (149165230 # 1000000);
     alt := PFloat (1 # 100) |}.

(** A simulated vehicle on the ground with every reading available. *)
Definition sitl (n : nat) : Vehicle :=
  {| vid := n;
     mode := Val (Some {| name := PStr "STABILIZE" |});
     armed := Val (PBool false);
     location := Val {| global_relative_frame := Val (Some home) |};
     airspeed := Val (PFloat 0);
     groundspeed := Val (PFloat 0);
     heading := Val (PInt 353);
     battery := Val (Some {| voltage := PFloat (12587 # 1000) |});
     close := Val tt |}.

Definition with_mode (m : py (option VehicleMode)) (v : Vehicle) : Vehicle :=
  {| vid := vid v; mode := m; armed := armed v; location := location v;
     airspeed := airspeed v; groundspeed := groundspeed v;
     heading := heading v; battery := battery v; close := close v |}.

Definition with_armed (a : py pyval) (v : Vehicle) : Vehicle :=
  {| vid := vid v; mode := mode v; armed := a; location := location v;
     airspeed := airspeed v; groundspeed := groundspeed v;
     heading := heading v; battery := battery v; close := close v |}.

Definition with_close (c : py unit) (v : Vehicle) : Vehicle :=
  {| vid := vid v; mode := mode v; armed := armed v; location := location v;
     airspeed := airspeed v; groundspeed := groundspeed v;
     heading := heading v; battery := battery v; close := c |}.

(** A vehicle without position fix and without battery report. *)
Definition no_fix (n : nat) : Vehicle :=
  {| vid := n;
     mode := Val (Some {| name := PStr "GUIDED" |});
     armed := Val (PBool true);
     location := Val {| global_relative_frame := Val None |};
     airspeed := Val PNone;
     groundspeed := Val PNone;
     heading := Val PNone;
     battery := Val None;
     close := Val tt |}.

Definition link_down : exn := mkExn false false "link down".
Definition socket_timeout : exn := mkExn false true "timed out".
(** A driver that serves the simulator's address only; the n-th call opens
    session n. *)
Definition sitl_driver : Driver :=
  {| connect := fun n ip _ _ =>
       if String.eqb ip "udp:127.0.0.1:14550" then Val (Some (sitl n))
       else Raise (mkExn true false "invalid address") |}.

Definition timeout_driver : Driver :=
  {| connect := fun _ _ _ _ => Raise socket_timeout |}.

Definition connected (v : Vehicle) : World :=
  {| vehicle := Some v;
     connection_string := "udp:127.0.0.1:14550";
     log := [];
     driver_calls := [CallConnect "udp:127.0.0.1:14550" true 60] |}.

(** ** Attempts, error replies and further samples *)

(** The world in which the driver call of [connect_drone] has been made:
    the attempt is logged and the call recorded. *)
Definition attempting (w : World) : World :=
  mkWorld (vehicle w) (connection_string w)
    (log w ++ [{| level := INFO;
                  message := [Lit "Attempting connection to ";
                              Fmt (PStr (connection_string w)); Lit "..."] |}])
    (driver_calls w ++ [CallConnect (connection_string w) true 60]).

(** A session-opening call with the arguments written in the source. *)
Definition fixed_attempt (c : DriverCall) : Prop :=
  match c with
  | CallConnect ip wr t => ip = "udp:127.0.0.1:14550" /\ wr = true /\ t = 60%Z
  | CallClose _ => True
  end.

(** The reads of lines 51-53, in order: mode name, armed flag, and the
    relative altitude or 'N/A'. *)
Definition baseline (v : Vehicle) : py (pyval * pyval * pyval) :=
  n <~ mode_name v ;;
  a <~ armed v ;;
  h <~ frame_field alt "alt" (PStr "N/A") v ;;
  Val (n, a, h).

Definition baseline_log (t : pyval * pyval * pyval) : list LogRecord :=
  let '(n, a, h) := t in
  [ {| level := INFO; message := [Lit "Connection Successful!"] |};
    {| level := INFO; message := [Lit "  Mode: "; Fmt n] |};
    {| level := INFO; message := [Lit "  Armed: "; Fmt a] |};
    {| level := INFO; message := [Lit "  Altitude: "; Fmt h] |} ].

(** The ways an attempt fails: [connect] raises, [connect] returns [None],
    or a read of lines 51-53 raises on the session just opened. *)
Inductive attempt_fails : py (option Vehicle) -> Prop :=
| fails_raise e : attempt_fails (Raise e)
| fails_none : attempt_fails (Val None)
| fails_read v e : baseline v = Raise e -> attempt_fails (Val (Some v)).

(** The reply chosen by the [except] clauses for an exception [e]. *)
Definition except_reply (e : exn) : Response :=
  if is_APIException e then
    error_message ("DroneKit API Error: " ++ exn_str e)
  else if is_TimeoutError e then
    error_message "Connection timed out after 60 seconds."
  else
    error_message ("Unexpected Error: " ++ exn_str e).

(** The error answers of [connect_drone], by the clause that makes them. *)
Inductive connect_error : Response -> Prop :=
| err_driver e :
    is_APIException e = true ->
    connect_error (error_message ("DroneKit API Error: " ++ exn_str e))
| err_timeout e :
    is_APIException e = false -> is_TimeoutError e = true ->
    connect_error (error_message "Connection timed out after 60 seconds.")
| err_unknown e :
    is_APIException e = false -> is_TimeoutError e = false ->
    connect_error (error_message ("Unexpected Error: " ++ exn_str e))
| err_none :
    connect_error (error_message "Failed to connect (vehicle object is None)").

(** A request that carries an address no transport scheme accepts. *)
Definition bad_address_request : Request :=
  Some (JObj [("connection_string", JStr "not-a-valid-address")]).

(** A session whose [close] raises. *)
Definition stuck : Vehicle := with_close (Raise link_down) (sitl 0).

Definition stuck_driver : Driver :=
  {| connect := fun _ _ _ _ => Val (Some stuck) |}.


Definition with_airspeed (a : py pyval) (v : Vehicle) : Vehicle :=
  {| vid := vid v; mode := mode v; armed := armed v; location := location v;
     airspeed := a; groundspeed := groundspeed v;
     heading := heading v; battery := battery v; close := close v |}.

(** A session that opens and passes the first reads, but whose airspeed
    read raises. *)
Definition lossy (n : nat) : Vehicle := with_airspeed (Raise link_down) (sitl n).

(** A driver whose first attempt times out and whose later ones return
    such a session. *)
Definition lossy_driver : Driver :=
  {| connect := fun n _ _ _ =>
       match n with
       | O => Raise socket_timeout
       | S _ => Val (Some (lossy n))
       end |}.

(** ** index (lines 24-27) *)

Definition index : M Response :=
  ret (jsonify [("message", JStr "GCS Backend Running!")]).

(** ** Observations on worlds, logs and runs *)

Definition held (w : World) : bool :=
  match vehicle w with
  | Some _ => true
  | None => false
  end.

Definition is_error_record (r : LogRecord) : bool :=
  match level r with
  | ERROR => true
  | INFO => false
  end.

Definition count_errors (l : list LogRecord) : nat :=
  length (filter is_error_record l).

Definition is_close (c : DriverCall) : bool :=
  match c with
  | CallClose _ => true
  | CallConnect _ _ _ => false
  end.

Definition is_disconnect (c : Call) : bool :=
  match c with
  | Disconnect => true
  | _ => false
  end.

(** What a handler call adds to the count of ERROR records, by its
    outcome. *)
Definition error_records_of (r : py Response) : nat :=
  match r with
  | Val resp => if Z.eqb (status_code resp) 500 then 1 else 0
  | Raise _ => 0
  end.

(** A session that opens but whose armed flag cannot be read. *)
Definition half_open (n : nat) : Vehicle := with_armed (Raise link_down) (sitl n).

Definition half_open_driver : Driver :=
  {| connect := fun n _ _ _ => Val (Some (half_open n)) |}.

(** A driver whose first attempt times out and whose later ones succeed. *)
Definition flaky_driver : Driver :=
  {| connect := fun n _ _ _ =>
       match n with
       | O => Raise socket_timeout
       | S _ => Val (Some (sitl n))
       end |}.

(** A timeout raised by the driver as one of its own API exceptions. *)
Definition api_timeout : exn := mkExn true true "wait_ready experienced a timeout".

(** * Properties *)

(** ** Proof support *)

Ltac exec :=
  unfold handle, connect_drone, connect_start, connect_resume, connect_except,
    disconnect_drone, get_status, call_close, call_connect, record_call,
    logging_info, logging_error, emit, get_connection_string, set_vehicle,
    get_vehicle, try_except, lift, bind, ret in *;
  simpl in *.

(** Case analysis on the next scrutinee of the goal. *)
Ltac branch :=
  match goal with
  | |- context [match ?x with _ => _ end] =>
      lazymatch x with
      | context [match _ with _ => _ end] => fail
      | _ => destruct x eqn:?; simpl in *
      end
  end.

Ltac run := exec; repeat branch.

(** Counting the ERROR records of a log that grew by single records. *)
Create Rewrite HintDb log_count.
Ltac count_log := simpl; autorewrite with log_count; simpl; lia.

(** What a handler leaves untouched. *)

Lemma get_status_frame w :
  vehicle (snd (get_status w)) = vehicle w /\
  connection_string (snd (get_status w)) = connection_string w /\
  driver_calls (snd (get_status w)) = driver_calls w.
Proof. run; auto. Qed.

Lemma connect_resume_frame r w :
  connection_string (snd (connect_resume r w)) = connection_string w /\
  driver_calls (snd (connect_resume r w)) = driver_calls w.
Proof. run; auto. Qed.

(** The two paths of [connect_drone]. *)

Lemma connect_drone_held d request w v :
  vehicle w = Some v ->
  connect_drone d request w =
    (Val (success_message "Already connected"),
     mkWorld (vehicle w) (connection_string w)
       (log w ++ [{| level := INFO; message := [Lit "Already connected."] |}])
       (driver_calls w)).
Proof. intros Hv. destruct w; simpl in Hv; subst. reflexivity. Qed.

Lemma connect_drone_empty d request w :
  vehicle w = None ->
  connect_drone d request w =
    connect_resume
      (connect d (length (driver_calls w)) (connection_string w) true 60)
      (attempting w).
Proof.
  intros Hv. destruct w; simpl in Hv; subst. reflexivity.
Qed.

Lemma connect_drone_frame d request w :
  connection_string (snd (connect_drone d request w)) = connection_string w /\
  driver_calls (snd (connect_drone d request w)) =
    driver_calls w ++
    match vehicle w with
    | Some _ => []
    | None => [CallConnect (connection_string w) true 60]
    end.
Proof.
  destruct (vehicle w) as [v|] eqn:Hv.
  - rewrite (connect_drone_held d request w v Hv). simpl.
    rewrite app_nil_r. auto.
  - rewrite (connect_drone_empty d request w Hv).
    destruct (connect_resume_frame
                (connect d (length (driver_calls w)) (connection_string w) true 60)
                (attempting w)) as [Hc Hd].
    rewrite Hc, Hd. auto.
Qed.

Lemma disconnect_drone_frame w :
  connection_string (snd (disconnect_drone w)) = connection_string w /\
  driver_calls (snd (disconnect_drone w)) =
    driver_calls w ++
    match vehicle w with
    | Some v => [CallClose (vid v)]
    | None => []
    end.
Proof. run; rewrite ?app_nil_r; auto. Qed.

(** Status calls never touch the handle, whatever they answer. *)
Lemma serve_status d n w :
  vehicle (serve d (repeat Status n) w) = vehicle w.
Proof.
  revert w. induction n as [|n IH]; intros w; simpl.
  - reflexivity.
  - rewrite IH. apply get_status_frame.
Qed.

(** No handler assigns [connection_string], so every attempt ever made went
    to the address set at start-up. *)
Lemma reachable_fixed d w :
  reachable d w ->
  connection_string w = "udp:127.0.0.1:14550" /\
  Forall fixed_attempt (driver_calls w).
Proof.
  induction 1 as [|c w Hr [Hcs Hcalls]].
  - split; [reflexivity | constructor].
  - destruct c as [request| |]; simpl.
    + destruct (connect_drone_frame d request w) as [Hc Hd].
      rewrite Hc, Hd. split; [assumption|].
      apply Forall_app. split; [assumption|].
      destruct (vehicle w); constructor; [|constructor].
      simpl. auto.
    + destruct (disconnect_drone_frame w) as [Hc Hd].
      rewrite Hc, Hd. split; [assumption|].
      apply Forall_app. split; [assumption|].
      destruct (vehicle w); constructor; [|constructor].
      exact I.
    + destruct (get_status_frame w) as (_ & Hc & Hd).
      rewrite Hc, Hd. auto.
Qed.

(** Requests served one after another, none of them a Disconnect, keep a
    held session and make no driver call. *)
Lemma serve_without_disconnect d cs w v :
  vehicle w = Some v ->
  forallb (fun c => negb (is_disconnect c)) cs = true ->
  vehicle (serve d cs w) = Some v /\
  driver_calls (serve d cs w) = driver_calls w.
Proof.
  revert w. induction cs as [|c cs IH]; intros w Hv Hcs; simpl in *.
  - auto.
  - apply andb_prop in Hcs. destruct Hcs as [Hc Hcs].
    destruct c as [request| |]; simpl in Hc; try discriminate; simpl.
    + destruct (connect_drone_frame d request w) as [_ Hd].
      rewrite Hv, app_nil_r in Hd.
      assert (Hv' : vehicle (snd (connect_drone d request w)) = Some v).
      { rewrite (connect_drone_held d request w v Hv). exact Hv. }
      destruct (IH (snd (connect_drone d request w)) Hv' Hcs) as [H1 H2].
      split; congruence.
    + destruct (get_status_frame w) as (Hg1 & _ & Hg3).
      destruct (IH (snd (get_status w))) as [H1 H2]; [congruence | assumption |].
      split; congruence.
Qed.

(** ** Connect while a handle is held *)



(** ** Status while the telemetry query raises *)

(** C4, as amended: when a handle is held and reading the telemetry raises
    [e], Status answers an error reply, code 500 with status "error" and the
    message "Error fetching status: e" (there is no LinkLost kind: every
    exception gets this reply), and changes neither the handle nor the
    state.  The link is Connected when the call returns and stays so over
    any further Status and Connect requests served one after another. *)
Theorem status_link_lost w v e :
  vehicle w = Some v ->
  status_dict v = Raise e ->
  fst (get_status w)
    = Val {| body := JObj [("status", JStr "error");
                           ("message",
                            JStr ("Error fetching status: " ++ exn_str e))];
             status_code := 500 |} /\
  vehicle (snd (get_status w)) = Some v /\
  state_of (snd (get_status w)) = Connected /\
  driver_calls (snd (get_status w)) = driver_calls w /\
  (forall d cs,
     forallb (fun c => negb (is_disconnect c)) cs = true ->
     vehicle (serve d cs (snd (get_status w))) = Some v /\
     state_of (serve d cs (snd (get_status w))) = Connected).
Proof.
  intros Hv He.
  destruct (get_status_frame w) as (Hg1 & _ & Hg3).
  assert (Hv' : vehicle (snd (get_status w)) = Some v) by congruence.
  split; [|split; [exact Hv'|split; [|split; [exact Hg3|]]]].
  - unfold get_status, bind, get_vehicle, try_except, lift. simpl.
    rewrite Hv. simpl. rewrite He. reflexivity.
  - unfold state_of. rewrite Hv'. reflexivity.
  - intros d cs Hcs.
    destruct (serve_without_disconnect d cs _ v Hv' Hcs) as [H _].
    unfold state_of. rewrite H. auto.
Qed.

Lemma status_link_lost_witness :
  reachable lossy_driver (serve lossy_driver [Connect None; Connect None] init) /\
  fst (get_status (serve lossy_driver [Connect None; Connect None] init))
    = Val {| body := JObj [("status", JStr "error");
                           ("message", JStr "Error fetching status: link down")];
             status_code := 500 |} /\
  state_of (snd (get_status (serve lossy_driver [Connect None; Connect None] init)))
    = Connected.
Proof.
  split.
  - apply (reach_step lossy_driver (Connect None)).
    apply (reach_step lossy_driver (Connect None)).
    apply reach_init.
  - destruct (status_link_lost
                (serve lossy_driver [Connect None; Connect None] init)
                (lossy 1) link_down)
      as (Hr & _ & Hs & _).
    + reflexivity.
    + reflexivity.
    + split; [exact Hr | exact Hs].
Defined.

(** C4, as stated, fails: after Status has answered the error on a held
    session, the state does not stay Connected until a Disconnect.  A
    Connect that was in flight since before the session was stored times
    out, and its [except] clause clears the handle: the state is
    Disconnected and no Disconnect ran, no [close] was called. *)
Lemma status_then_cleared_without_disconnect :
  let started := connect_start lossy_driver None init in
  let second := connect_drone lossy_driver None (snd started) in
  let status := get_status (snd second) in
  let first := connect_resume (Raise socket_timeout) (snd status) in
  fst started = Val (inr (Raise socket_timeout)) /\
  vehicle (snd second) = Some (lossy 1) /\
  fst status = Val (error_message "Error fetching status: link down") /\
  state_of (snd status) = Connected /\
  state_of (snd first) = Disconnected /\
  filter is_close (driver_calls (snd first)) = [].
Proof. repeat split. Qed.

(** ** Connect and the request payload *)

(** C9: Connect never reads the request: two calls in the same state give
    the same answer and the same next state whatever their payloads, and in
    every state the server can reach each session-opening attempt goes to
    'udp:127.0.0.1:14550' with wait_ready and a timeout of 60. *)
Theorem connect_ignores_request d w (req1 req2 : Request) :
  reachable d w ->
  connect_drone d req1 w = connect_drone d req2 w /\
  connection_string w = "udp:127.0.0.1:14550" /\
  Forall fixed_attempt (driver_calls (snd (connect_drone d req1 w))).
Proof.
  intros Hr. split; [reflexivity|].
  split; [apply (reachable_fixed d w Hr)|].
  apply (reachable_fixed d _ (reach_step d (Connect req1) w Hr)).
Qed.

Lemma connect_ignores_request_witness :
  connect_drone sitl_driver None (serve sitl_driver [Disconnect] init)
    = connect_drone sitl_driver
        (Some (JObj [("connection_string", JStr "tcp:10.0.0.7:5760")]))
        (serve sitl_driver [Disconnect] init).
Proof.
  apply (connect_ignores_request sitl_driver
           (serve sitl_driver [Disconnect] init) None
           (Some (JObj [("connection_string", JStr "tcp:10.0.0.7:5760")]))).
  apply (reach_step sitl_driver Disconnect init). apply reach_init.
Defined.

(** ** Connect without a handle: the attempt *)

Lemma connect_error_500 resp : connect_error resp -> status_code resp = 500%Z.
Proof. destruct 1; reflexivity. Qed.

Lemma connect_except_reply e w :
  fst (connect_except e w) = Val (except_reply e).
Proof.
  unfold connect_except, except_reply.
  destruct (is_APIException e); [|destruct (is_TimeoutError e)]; reflexivity.
Qed.

Lemma connect_except_spec e w :
  exists resp,
    fst (connect_except e w) = Val resp /\ connect_error resp /\
    vehicle (snd (connect_except e w)) = None.
Proof.
  unfold connect_except.
  destruct (is_APIException e) eqn:Ha; [|destruct (is_TimeoutError e) eqn:Ht];
    eexists; (split; [reflexivity|]); (split; [|reflexivity]).
  - apply err_driver; assumption.
  - apply (err_timeout e); assumption.
  - apply err_unknown; assumption.
Qed.

(** A successful attempt: the handle is stored and the baseline logged. *)
Lemma connect_resume_success v t w :
  baseline v = Val t ->
  connect_resume (Val (Some v)) w =
    (Val (success_message "Connected to Vehicle"),
     mkWorld (Some v) (connection_string w) (log w ++ baseline_log t)
       (driver_calls w)).
Proof.
  unfold baseline, py_bind. intros Hb.
  destruct (mode_name v) as [n|] eqn:Hn; [|discriminate].
  destruct (armed v) as [a|] eqn:Ha; [|discriminate].
  destruct (frame_field alt "alt" (PStr "N/A") v) as [h|] eqn:Hh; [|discriminate].
  injection Hb as <-.
  exec. rewrite Hn. simpl. rewrite Ha. simpl. rewrite Hh. simpl.
  rewrite <- !app_assoc. reflexivity.
Qed.

(** A failed attempt: an error answer, and the handle is empty. *)
Lemma connect_resume_failure r w :
  attempt_fails r ->
  exists resp,
    fst (connect_resume r w) = Val resp /\ connect_error resp /\
    vehicle (snd (connect_resume r w)) = None.
Proof.
  intros Hf. destruct Hf as [e| |v e Hb].
  - unfold connect_resume, try_except, bind, lift. simpl.
    apply connect_except_spec.
  - eexists. split; [reflexivity|]. split; [apply err_none | reflexivity].
  - unfold baseline, py_bind in Hb.
    unfold connect_resume, try_except, bind, lift, set_vehicle, get_vehicle,
      logging_info, emit, ret. simpl.
    destruct (mode_name v) as [n|e1] eqn:Hn; simpl; [|apply connect_except_spec].
    destruct (armed v) as [a|e2] eqn:Ha; simpl; [|apply connect_except_spec].
    destruct (frame_field alt "alt" (PStr "N/A") v) as [h|e3] eqn:Hh; simpl;
      [discriminate | apply connect_except_spec].
Qed.

(** Every outcome of the driver call is one or the other. *)
Lemma attempt_dichotomy r :
  attempt_fails r \/ exists v t, r = Val (Some v) /\ baseline v = Val t.
Proof.
  destruct r as [[v|]|e].
  - destruct (baseline v) as [t|e] eqn:Hb.
    + right. eauto.
    + left. eapply fails_read; eassumption.
  - left. constructor.
  - left. constructor.
Qed.

(** The outcome of a Connect without a handle: one attempt, and a success
    or an error reply. *)
Lemma connect_empty_outcome d request w :
  vehicle w = None ->
  driver_calls (snd (connect_drone d request w))
    = driver_calls w ++ [CallConnect (connection_string w) true 60] /\
  exists resp,
    fst (connect_drone d request w) = Val resp /\
    (resp = success_message "Connected to Vehicle" \/ connect_error resp).
Proof.
  intros Hv. split.
  - destruct (connect_drone_frame d request w) as [_ Hd].
    rewrite Hd, Hv. reflexivity.
  - rewrite (connect_drone_empty d request w Hv).
    destruct (attempt_dichotomy
                (connect d (length (driver_calls w)) (connection_string w) true 60))
      as [Hf | (v & t & Hr & Hb)].
    + destruct (connect_resume_failure _ (attempting w) Hf) as (resp & Hr & He & _).
      exists resp. auto.
    + rewrite Hr, (connect_resume_success v t _ Hb).
      eexists. split; [reflexivity | auto].
Qed.

Lemma connect_resume_raise e w :
  fst (connect_resume (Raise e) w) = Val (except_reply e).
Proof.
  unfold connect_resume, try_except, bind, lift. simpl.
  apply connect_except_reply.
Qed.

(** ** Failed connect attempts *)

(** C2, as amended: every failed attempt started without a handle (the
    driver raises, returns [None], or a first read on the new session
    raises) is answered with one of the four error replies (driver error
    with detail, timeout, unexpected error with detail, null session), all
    with code 500, the reply to an exception of the driver being chosen by
    the first matching [except] clause, and leaves the handle empty.  The
    handler keeps no Failed or Connecting state and no last error: the
    state it leaves is the handle-less one, Disconnected. *)
Theorem connect_failure d request w :
  vehicle w = None ->
  attempt_fails (connect d (length (driver_calls w)) (connection_string w) true 60) ->
  (exists resp,
     fst (connect_drone d request w) = Val resp /\
     connect_error resp /\ status_code resp = 500%Z) /\
  vehicle (snd (connect_drone d request w)) = None /\
  state_of (snd (connect_drone d request w)) = Disconnected /\
  state_of (snd (connect_drone d request w)) <> Connecting /\
  (forall e,
     connect d (length (driver_calls w)) (connection_string w) true 60 = Raise e ->
     fst (connect_drone d request w) = Val (except_reply e)) /\
  (connect d (length (driver_calls w)) (connection_string w) true 60 = Val None ->
   fst (connect_drone d request w)
     = Val (error_message "Failed to connect (vehicle object is None)")).
Proof.
  intros Hv Hf. rewrite (connect_drone_empty d request w Hv).
  destruct (connect_resume_failure _ (attempting w) Hf) as (resp & Hr & He & Hn).
  split; [exists resp; auto using connect_error_500|].
  split; [exact Hn|].
  unfold state_of. rewrite Hn.
  split; [reflexivity|]. split; [discriminate|]. split.
  - intros e Hraise. rewrite Hraise.
    unfold connect_resume, try_except, bind, lift. simpl.
    apply connect_except_reply.
  - intros Hnone. rewrite Hnone. reflexivity.
Qed.

Lemma connect_failure_witness :
  vehicle (snd (connect_drone timeout_driver None init)) = None.
Proof.
  apply (connect_failure timeout_driver None init).
  - reflexivity.
  - simpl. apply fails_raise.
Defined.

(** C2, as stated, fails: after a timed-out attempt the answer is the
    timeout error, and the state is not Failed but the same Disconnected
    state the server started in. *)
Lemma connect_failure_not_Failed :
  attempt_fails (connect timeout_driver 0 "udp:127.0.0.1:14550" true 60) /\
  fst (connect_drone timeout_driver None init)
    = Val (error_message "Connection timed out after 60 seconds.") /\
  state_of (snd (connect_drone timeout_driver None init)) <> Failed /\
  state_of (snd (connect_drone timeout_driver None init)) = state_of init.
Proof.
  split; [apply fails_raise|].
  split; [reflexivity|].
  split; [discriminate | reflexivity].
Qed.

(** ** Malformed addresses *)

(** C7, as amended: Connect reads no address from the caller and validates
    none.  Whatever the request carries, a Connect without a handle makes
    exactly one session-opening attempt, to the configured address, and its
    answer is the success reply or one of the 500 errors, never a 400. *)
Theorem connect_no_address_check d request w :
  vehicle w = None ->
  driver_calls (snd (connect_drone d request w))
    = driver_calls w ++ [CallConnect (connection_string w) true 60] /\
  exists resp,
    fst (connect_drone d request w) = Val resp /\
    (resp = success_message "Connected to Vehicle" \/ connect_error resp) /\
    status_code resp <> 400%Z.
Proof.
  intros Hv. split.
  - destruct (connect_drone_frame d request w) as [_ Hd].
    rewrite Hd, Hv. reflexivity.
  - rewrite (connect_drone_empty d request w Hv).
    destruct (attempt_dichotomy
                (connect d (length (driver_calls w)) (connection_string w) true 60))
      as [Hf | (v & t & Hr & Hb)].
    + destruct (connect_resume_failure _ (attempting w) Hf) as (resp & Hr & He & _).
      exists resp. split; [assumption|]. split; [auto|].
      rewrite (connect_error_500 resp He). discriminate.
    + rewrite Hr, (connect_resume_success v t _ Hb).
      eexists. split; [reflexivity|]. split; [auto | discriminate].
Qed.

Lemma connect_no_address_check_witness :
  driver_calls (snd (connect_drone timeout_driver bad_address_request init))
    = [CallConnect "udp:127.0.0.1:14550" true 60].
Proof.
  apply (connect_no_address_check timeout_driver bad_address_request init).
  reflexivity.
Defined.

(** C7, as stated, fails: a request carrying 'not-a-valid-address' is not
    refused.  The attempt goes to the configured address, succeeds, and
    the state changes to Connected. *)
Lemma connect_bad_address_accepted :
  fst (connect_drone sitl_driver bad_address_request init)
    = Val (success_message "Connected to Vehicle") /\
  driver_calls (snd (connect_drone sitl_driver bad_address_request init))
    = [CallConnect "udp:127.0.0.1:14550" true 60] /\
  state_of (snd (connect_drone sitl_driver bad_address_request init)) = Connected /\
  state_of init = Disconnected.
Proof. repeat split. Qed.

(** ** Successful connect attempts *)

(** C8, as amended: when the driver returns a session on which the first
    reads succeed, a Connect without a handle stores that session, leaves
    the state Connected and answers success with "Connected to Vehicle"
    (not "Already connected").  The reply has a status and a message only:
    mode, armed flag and altitude go to the log, the altitude as 'N/A' when
    the relative frame is absent. *)
Theorem connect_success d request w v t :
  vehicle w = None ->
  connect d (length (driver_calls w)) (connection_string w) true 60 = Val (Some v) ->
  baseline v = Val t ->
  fst (connect_drone d request w) = Val (success_message "Connected to Vehicle") /\
  vehicle (snd (connect_drone d request w)) = Some v /\
  state_of (snd (connect_drone d request w)) = Connected /\
  log (snd (connect_drone d request w))
    = log (attempting w) ++ baseline_log t /\
  (frame v = Val None -> snd t = PStr "N/A") /\
  (forall g, frame v = Val (Some g) -> snd t = alt g).
Proof.
  intros Hv Hr Hb. rewrite (connect_drone_empty d request w Hv), Hr.
  rewrite (connect_resume_success v t _ Hb). simpl.
  repeat split.
  - intros Hf. unfold baseline, frame_field, py_bind in Hb. rewrite Hf in Hb.
    destruct (mode_name v); [|discriminate].
    destruct (armed v); [|discriminate].
    injection Hb as <-. reflexivity.
  - intros g Hf. unfold baseline, frame_field, py_bind in Hb. rewrite Hf in Hb.
    destruct (mode_name v); [|discriminate].
    destruct (armed v); [|discriminate].
    injection Hb as <-. reflexivity.
Qed.

Lemma connect_success_witness :
  vehicle (snd (connect_drone sitl_driver None init)) = Some (sitl 0) /\
  log (snd (connect_drone sitl_driver None init))
    = log (attempting init)
      ++ baseline_log (PStr "STABILIZE", PBool false, PFloat (1 # 100)).
Proof.
  destruct (connect_success sitl_driver None init (sitl 0)
              (PStr "STABILIZE", PBool false, PFloat (1 # 100)))
    as (_ & Hv & _ & Hl & _); try reflexivity.
  split; [exact Hv | exact Hl].
Defined.

(** C8, as stated, fails: the reply to a successful Connect carries no
    telemetry snapshot, neither mode nor armed flag nor altitude. *)
Lemma connect_success_no_snapshot :
  exists resp,
    fst (connect_drone sitl_driver None init) = Val resp /\
    status_code resp = 200%Z /\
    json_get "mode" (body resp) = None /\
    json_get "armed" (body resp) = None /\
    json_get "alt" (body resp) = None /\
    json_get "data" (body resp) = None.
Proof. eexists. repeat split. Qed.

(** ** Connect while another Connect is in flight *)

Lemma connect_start_empty d request w :
  vehicle w = None ->
  connect_start d request w =
    (Val (inr (connect d (length (driver_calls w)) (connection_string w) true 60)),
     attempting w).
Proof. intros Hv. destruct w; simpl in Hv; subst. reflexivity. Qed.

(** C10, as amended: the handler has no Connecting state and no
    ConnectInProgress error.  While a first Connect is in flight (its driver
    call made, nothing assigned yet) the handle is still empty and the
    state still Disconnected, and a second Connect arriving then is served
    like any Connect without a handle: it makes a session-opening attempt of
    its own and answers success or one of the connect errors. *)
Theorem connect_while_in_flight d req1 req2 w :
  vehicle w = None ->
  vehicle (snd (connect_start d req1 w)) = None /\
  state_of (snd (connect_start d req1 w)) = Disconnected /\
  driver_calls (snd (connect_drone d req2 (snd (connect_start d req1 w))))
    = driver_calls w ++ [CallConnect (connection_string w) true 60;
                         CallConnect (connection_string w) true 60] /\
  exists resp,
    fst (connect_drone d req2 (snd (connect_start d req1 w))) = Val resp /\
    (resp = success_message "Connected to Vehicle" \/ connect_error resp).
Proof.
  intros Hv. rewrite (connect_start_empty d req1 w Hv). simpl.
  assert (Hv1 : vehicle (attempting w) = None) by exact Hv.
  split; [exact Hv|]. split; [unfold state_of; rewrite Hv1; reflexivity|].
  destruct (connect_empty_outcome d req2 (attempting w) Hv1)
    as (Hd & resp & Hr & Hc).
  split.
  - rewrite Hd. simpl. rewrite <- app_assoc. reflexivity.
  - exists resp. auto.
Qed.

Lemma connect_while_in_flight_witness :
  driver_calls
    (snd (connect_drone timeout_driver None
            (snd (connect_start timeout_driver None init))))
    = [CallConnect "udp:127.0.0.1:14550" true 60;
       CallConnect "udp:127.0.0.1:14550" true 60].
Proof.
  apply (connect_while_in_flight timeout_driver None None init).
  reflexivity.
Defined.

(** C10, as stated, fails: with a first Connect in flight, a second one is
    not refused.  It opens a session of its own and answers success; when
    the first resumes, its session replaces the second's in the handle. *)
Lemma connect_in_flight_duplicated :
  let started := connect_start sitl_driver None init in
  let second := connect_drone sitl_driver None (snd started) in
  let first := connect_resume (Val (Some (sitl 0))) (snd second) in
  fst started = Val (inr (Val (Some (sitl 0)))) /\
  fst second = Val (success_message "Connected to Vehicle") /\
  driver_calls (snd second)
    = [CallConnect "udp:127.0.0.1:14550" true 60;
       CallConnect "udp:127.0.0.1:14550" true 60] /\
  vehicle (snd second) = Some (sitl 1) /\
  fst first = Val (success_message "Connected to Vehicle") /\
  vehicle (snd first) = Some (sitl 0).
Proof. repeat split. Qed.

(** ** Disconnect *)

(** In every state whose session, if any, closes without raising,
    Disconnect completes and ends Disconnected with the handle cleared.
    With a handle held it closes that session and answers success with
    "Disconnected"; without one it calls nothing and answers success with
    "Already disconnected". *)
Theorem disconnect_ends_disconnected w :
  (forall v, vehicle w = Some v -> close v = Val tt) ->
  fst (disconnect_drone w)
    = Val (success_message
             match vehicle w with
             | Some _ => "Disconnected"
             | None => "Already disconnected"
             end) /\
  vehicle (snd (disconnect_drone w)) = None /\
  state_of (snd (disconnect_drone w)) = Disconnected /\
  driver_calls (snd (disconnect_drone w))
    = driver_calls w ++
      match vehicle w with
      | Some v => [CallClose (vid v)]
      | None => []
      end.
Proof.
  intros Hc. unfold state_of.
  destruct w as [[v|] cs lg dc]; simpl in *.
  - unfold disconnect_drone, call_close, record_call, bind, lift, get_vehicle.
    simpl. rewrite (Hc v eq_refl). simpl. auto.
  - rewrite app_nil_r. auto.
Qed.

Lemma disconnect_ends_disconnected_witness :
  fst (disconnect_drone (connected (sitl 0)))
    = Val (success_message "Disconnected") /\
  state_of (snd (disconnect_drone (connected (sitl 0)))) = Disconnected.
Proof.
  destruct (disconnect_ends_disconnected (connected (sitl 0)))
    as (Hr & _ & Hs & _).
  - intros v Hv. injection Hv as <-. reflexivity.
  - split; [exact Hr | exact Hs].
Defined.

(** C1 on a held session whose [close] raises: Disconnect makes the close
    call and does not complete.  The exception leaves the handler uncaught
    instead of being logged and swallowed, the only record written is the
    INFO line before the call, and the handle stays held with the state
    Connected. *)
Theorem disconnect_close_failure w v e :
  vehicle w = Some v ->
  close v = Raise e ->
  fst (disconnect_drone w) = Raise e /\
  vehicle (snd (disconnect_drone w)) = Some v /\
  state_of (snd (disconnect_drone w)) = Connected /\
  log (snd (disconnect_drone w))
    = log w ++ [{| level := INFO;
                   message := [Lit "Closing vehicle connection..."] |}] /\
  driver_calls (snd (disconnect_drone w)) = driver_calls w ++ [CallClose (vid v)].
Proof.
  intros Hv Hc. destruct w as [vh cs lg dc]. simpl in Hv. subst vh.
  unfold disconnect_drone, call_close, record_call, bind, lift, get_vehicle,
    logging_info, emit, state_of. simpl.
  rewrite Hc. simpl. auto.
Qed.

Lemma disconnect_close_failure_witness :
  reachable stuck_driver (serve stuck_driver [Connect None] init) /\
  fst (disconnect_drone (serve stuck_driver [Connect None] init))
    = Raise link_down /\
  state_of (snd (disconnect_drone (serve stuck_driver [Connect None] init)))
    = Connected.
Proof.
  split.
  - apply (reach_step stuck_driver (Connect None)). apply reach_init.
  - destruct (disconnect_close_failure
                (serve stuck_driver [Connect None] init) stuck link_down)
      as (Hr & _ & Hs & _).
    + reflexivity.
    + reflexivity.
    + split; [exact Hr | exact Hs].
Defined.

(** The same on the sample world. *)
Lemma disconnect_close_raises :
  fst (disconnect_drone (connected stuck)) = Raise link_down /\
  vehicle (snd (disconnect_drone (connected stuck))) = Some stuck /\
  state_of (snd (disconnect_drone (connected stuck))) = Connected /\
  log (snd (disconnect_drone (connected stuck)))
    = [{| level := INFO; message := [Lit "Closing vehicle connection..."] |}].
Proof. repeat split. Qed.

(** Once a Disconnect has answered, the next one finds nothing to do. *)
Lemma disconnect_after_disconnect w resp :
  fst (disconnect_drone w) = Val resp ->
  disconnect_drone (snd (disconnect_drone w)) =
    (Val (success_message "Already disconnected"),
     mkWorld None (connection_string w)
       (log (snd (disconnect_drone w))
          ++ [{| level := INFO;
                 message := [Lit "No active vehicle connection to disconnect."] |}])
       (driver_calls (snd (disconnect_drone w)))).
Proof.
  destruct w as [[v|] cs lg dc].
  - unfold disconnect_drone at 1 3 4 5, call_close, record_call, bind, lift,
      get_vehicle. simpl.
    destruct (close v); simpl; [reflexivity | discriminate].
  - reflexivity.
Qed.

(** C6 on the session whose [close] raises: the first Disconnect is cut
    short before the handle is cleared, so the second finds it still
    held, calls [close] again and ends in the same uncaught exception, with
    the state still Connected. *)
Theorem disconnect_twice_close_raises :
  let first := disconnect_drone (connected stuck) in
  let second := disconnect_drone (snd first) in
  fst first = Raise link_down /\
  fst second = Raise link_down /\
  fst second <> Val (success_message "Already disconnected") /\
  state_of (snd second) = Connected /\
  driver_calls (snd second)
    = [CallConnect "udp:127.0.0.1:14550" true 60; CallClose 0; CallClose 0].
Proof. repeat split. discriminate. Qed.

(** ** Status snapshots *)

(** With a mode name and the plain readings in hand, Status answers the
    snapshot: position fields are null when the relative frame is absent,
    the battery voltage is null when there is no battery report, and the
    other readings pass as they are ([None] as null). *)
Lemma status_snapshot w v m a f asp gsp hd b loc :
  vehicle w = Some v ->
  mode v = Val (Some m) -> armed v = Val a ->
  location v = Val loc -> global_relative_frame loc = Val f ->
  airspeed v = Val asp -> groundspeed v = Val gsp -> heading v = Val hd ->
  battery v = Val b ->
  get_status w =
    (Val (success_data
            [("is_connected", JBool true);
             ("mode", to_json (name m));
             ("armed", to_json a);
             ("lat", match f with Some g => to_json (lat g) | None => JNull end);
             ("lon", match f with Some g => to_json (lon g) | None => JNull end);
             ("alt", match f with Some g => to_json (alt g) | None => JNull end);
             ("airspeed", to_json asp);
             ("groundspeed", to_json gsp);
             ("heading", to_json hd);
             ("battery_voltage",
              match b with Some bt => to_json (voltage bt) | None => JNull end)]),
     w).
Proof.
  intros Hv Hm Ha Hl Hf Has Hgs Hhd Hb.
  unfold get_status, bind, get_vehicle, try_except, lift, ret. simpl.
  rewrite Hv.
  unfold status_dict, mode_name, frame_field, frame, battery_voltage, py_bind.
  rewrite Hm, Ha, Hl, Hf, Has, Hgs, Hhd, Hb.
  destruct f, b; reflexivity.
Qed.





(** * Further properties of the handlers *)

(** ** Status *)

Lemma status_dict_head v l :
  status_dict v = Val l ->
  exists rest, l = ("is_connected", JBool true) :: rest.
Proof.
  unfold status_dict, py_bind. intros H.
  repeat match type of H with
         | match ?x with _ => _ end = _ => destruct x; try discriminate
         end.
  injection H as <-. eauto.
Qed.

(** Status never lets an exception escape and is read-only: whatever the
    reads on the session do, it answers, and the handle, the configured
    address and the driver-call trace are as before. *)
Theorem status_always_answers w :
  (exists resp, fst (get_status w) = Val resp) /\
  vehicle (snd (get_status w)) = vehicle w /\
  connection_string (snd (get_status w)) = connection_string w /\
  driver_calls (snd (get_status w)) = driver_calls w.
Proof.
  split; [|apply get_status_frame].
  destruct w as [[v|] cs lg dc]; [|eexists; reflexivity].
  unfold get_status, bind, get_vehicle, try_except, lift, ret. simpl.
  destruct (status_dict v); simpl; eexists; reflexivity.
Qed.

(** Whenever Status answers with code 200, the reply's data tells whether
    the handle is held: is_connected is true exactly when it is. *)
Theorem status_reports_handle w resp :
  fst (get_status w) = Val resp ->
  status_code resp = 200%Z ->
  exists data,
    json_get "data" (body resp) = Some (JObj data) /\
    assoc "is_connected" data = Some (JBool (held w)).
Proof.
  destruct w as [[v|] cs lg dc];
    unfold get_status, bind, get_vehicle, try_except, lift, ret, held; simpl.
  - destruct (status_dict v) as [l|e] eqn:Hs; simpl; intros Hr Hc.
    + injection Hr as <-. destruct (status_dict_head v l Hs) as [rest ->].
      eexists. split; reflexivity.
    + injection Hr as <-. discriminate.
  - intros Hr _. injection Hr as <-. eexists. split; reflexivity.
Qed.

Lemma status_reports_handle_witness :
  exists data,
    json_get "data" (body (success_data [("is_connected", JBool false)]))
      = Some (JObj data) /\
    assoc "is_connected" data = Some (JBool (held init)).
Proof.
  apply (status_reports_handle init
           (success_data [("is_connected", JBool false)])); reflexivity.
Defined.

Lemma status_snapshot_witness :
  get_status (connected (no_fix 0)) =
    (Val (success_data
            [("is_connected", JBool true); ("mode", JStr "GUIDED");
             ("armed", JBool true); ("lat", JNull); ("lon", JNull);
             ("alt", JNull); ("airspeed", JNull); ("groundspeed", JNull);
             ("heading", JNull); ("battery_voltage", JNull)]),
     connected (no_fix 0)).
Proof.
  apply (status_snapshot (connected (no_fix 0)) (no_fix 0)
           {| name := PStr "GUIDED" |} (PBool true) None PNone PNone PNone None
           {| global_relative_frame := Val None |});
    reflexivity.
Defined.

(** ** Connect *)

(** Connect never lets an exception escape, whatever the driver does: it
    answers "Already connected", "Connected to Vehicle" or one of the four
    error replies.  It never calls [close]: the driver calls it adds are
    session-opening attempts only. *)
Theorem connect_always_answers d request w :
  (exists resp,
     fst (connect_drone d request w) = Val resp /\
     (resp = success_message "Already connected" \/
      resp = success_message "Connected to Vehicle" \/
      connect_error resp)) /\
  filter is_close (driver_calls (snd (connect_drone d request w)))
    = filter is_close (driver_calls w).
Proof.
  split.
  - destruct (vehicle w) as [v|] eqn:Hv.
    + rewrite (connect_drone_held d request w v Hv). simpl. eauto.
    + destruct (connect_empty_outcome d request w Hv)
        as (_ & resp & Hr & [Hs|He]); eauto 6.
  - destruct (connect_drone_frame d request w) as [_ Hd]. rewrite Hd.
    rewrite filter_app. destruct (vehicle w); simpl; apply app_nil_r.
Qed.

Lemma connect_resume_read_raises v e w :
  baseline v = Raise e ->
  fst (connect_resume (Val (Some v)) w) = Val (except_reply e) /\
  vehicle (snd (connect_resume (Val (Some v)) w)) = None /\
  driver_calls (snd (connect_resume (Val (Some v)) w)) = driver_calls w.
Proof.
  intros Hb. split; [|split; [|apply connect_resume_frame]].
  - unfold baseline, py_bind in Hb.
    unfold connect_resume, try_except, bind, lift, set_vehicle, get_vehicle,
      logging_info, emit, ret. simpl.
    destruct (mode_name v) as [n|e1]; simpl;
      [|injection Hb as <-; apply connect_except_reply].
    destruct (armed v) as [a|e2]; simpl;
      [|injection Hb as <-; apply connect_except_reply].
    destruct (frame_field alt "alt" (PStr "N/A") v) as [h|e3]; simpl;
      [discriminate | injection Hb as <-; apply connect_except_reply].
  - destruct (connect_resume_failure (Val (Some v)) w (fails_read v e Hb))
      as (_ & _ & _ & Hn). exact Hn.
Qed.

(** A session that opens but fails its first reads is dropped unclosed:
    Connect answers the error chosen for the exception of the read, clears
    the handle without calling [close], and a Disconnect that follows finds
    nothing to close either. *)
Theorem connect_drops_session_unclosed d request w v e :
  vehicle w = None ->
  connect d (length (driver_calls w)) (connection_string w) true 60 = Val (Some v) ->
  baseline v = Raise e ->
  fst (connect_drone d request w) = Val (except_reply e) /\
  vehicle (snd (connect_drone d request w)) = None /\
  driver_calls (snd (connect_drone d request w))
    = driver_calls w ++ [CallConnect (connection_string w) true 60] /\
  driver_calls (snd (disconnect_drone (snd (connect_drone d request w))))
    = driver_calls w ++ [CallConnect (connection_string w) true 60].
Proof.
  intros Hv Hr Hb.
  destruct (connect_resume_read_raises v e (attempting w) Hb) as (H1 & H2 & H3).
  rewrite (connect_drone_empty d request w Hv), Hr.
  split; [exact H1|]. split; [exact H2|]. split; [exact H3|].
  destruct (disconnect_drone_frame (snd (connect_resume (Val (Some v)) (attempting w))))
    as [_ Hd].
  rewrite Hd, H2, H3. apply app_nil_r.
Qed.

Lemma connect_drops_session_unclosed_witness :
  fst (connect_drone half_open_driver None init)
    = Val (error_message "Unexpected Error: link down") /\
  driver_calls (snd (connect_drone half_open_driver None init))
    = [CallConnect "udp:127.0.0.1:14550" true 60].
Proof.
  destruct (connect_drops_session_unclosed half_open_driver None init
              (half_open 0) link_down) as (Hr & _ & Hc & _);
    try reflexivity.
  split; [exact Hr | exact Hc].
Defined.

(** The [except] clauses are tried in order: an exception of the driver
    that is an APIException is answered as a DroneKit API error with its
    text, also when it is a timeout as well, and never with the timeout
    message. *)
Theorem connect_api_exception_first d request w e :
  vehicle w = None ->
  connect d (length (driver_calls w)) (connection_string w) true 60 = Raise e ->
  is_APIException e = true ->
  fst (connect_drone d request w)
    = Val (error_message ("DroneKit API Error: " ++ exn_str e)) /\
  fst (connect_drone d request w)
    <> Val (error_message "Connection timed out after 60 seconds.").
Proof.
  intros Hv Hr Ha.
  rewrite (connect_drone_empty d request w Hv), Hr, connect_resume_raise.
  unfold except_reply. rewrite Ha.
  split; [reflexivity|]. intros H. inversion H.
Qed.

Lemma connect_api_exception_first_witness :
  fst (connect_drone {| connect := fun _ _ _ _ => Raise api_timeout |} None init)
    = Val (error_message
             "DroneKit API Error: wait_ready experienced a timeout").
Proof.
  apply (connect_api_exception_first
           {| connect := fun _ _ _ _ => Raise api_timeout |} None init api_timeout);
    reflexivity.
Defined.

(** After a failed attempt the next Connect tries again: the failure
    leaves nothing behind that blocks it, the driver is called once more,
    and if it now returns a readable session the handle is stored and the
    reply is "Connected to Vehicle". *)
Theorem connect_retry_after_failure d req1 req2 w v t :
  vehicle w = None ->
  attempt_fails (connect d (length (driver_calls w)) (connection_string w) true 60) ->
  connect d (S (length (driver_calls w))) (connection_string w) true 60
    = Val (Some v) ->
  baseline v = Val t ->
  fst (connect_drone d req2 (snd (connect_drone d req1 w)))
    = Val (success_message "Connected to Vehicle") /\
  vehicle (snd (connect_drone d req2 (snd (connect_drone d req1 w)))) = Some v /\
  driver_calls (snd (connect_drone d req2 (snd (connect_drone d req1 w))))
    = driver_calls w ++ [CallConnect (connection_string w) true 60;
                         CallConnect (connection_string w) true 60].
Proof.
  intros Hv Hf Hr Hb.
  destruct (connect_drone_frame d req1 w) as [Hc1 Hd1]. rewrite Hv in Hd1.
  assert (Hv1 : vehicle (snd (connect_drone d req1 w)) = None).
  { rewrite (connect_drone_empty d req1 w Hv).
    destruct (connect_resume_failure _ (attempting w) Hf) as (_ & _ & _ & Hn).
    exact Hn. }
  rewrite (connect_drone_empty d req2 _ Hv1).
  rewrite Hd1, Hc1, length_app, Nat.add_comm. simpl.
  rewrite Hr, (connect_resume_success v t _ Hb). simpl.
  rewrite Hd1, Hc1, <- app_assoc. auto.
Qed.

Lemma connect_retry_after_failure_witness :
  vehicle (snd (connect_drone flaky_driver None
                  (snd (connect_drone flaky_driver None init))))
    = Some (sitl 1).
Proof.
  apply (connect_retry_after_failure flaky_driver None None init (sitl 1)
           (PStr "STABILIZE", PBool false, PFloat (1 # 100))).
  - reflexivity.
  - simpl. apply fails_raise.
  - reflexivity.
  - reflexivity.
Defined.

(** ** Disconnect *)

(** An exception escapes Disconnect exactly when a handle is held and its
    [close] raises that exception; the handle is then still held. *)
Theorem disconnect_escapes_iff w e :
  (fst (disconnect_drone w) = Raise e <->
   exists v, vehicle w = Some v /\ close v = Raise e) /\
  (fst (disconnect_drone w) = Raise e ->
   vehicle (snd (disconnect_drone w)) = vehicle w).
Proof.
  destruct w as [[v|] cs lg dc];
    unfold disconnect_drone, call_close, record_call, bind, lift, get_vehicle,
      set_vehicle, logging_info, emit, ret; simpl.
  - destruct (close v) as [u|e'] eqn:Hc; simpl.
    + split; [split|]; try discriminate.
      intros (v' & Hv & Hc'). injection Hv as <-. congruence.
    + split; [split|]; auto.
      * intros H. injection H as <-. eauto.
      * intros (v' & Hv & Hc'). injection Hv as <-. congruence.
  - split; [split|]; try discriminate.
    intros (v' & Hv & _). discriminate.
Qed.

Lemma disconnect_after_disconnect_witness :
  fst (disconnect_drone (snd (disconnect_drone (connected (sitl 0)))))
    = Val (success_message "Already disconnected").
Proof.
  rewrite (disconnect_after_disconnect (connected (sitl 0))
             (success_message "Disconnected")); reflexivity.
Defined.

(** Connect followed by Disconnect opens one session and closes that same
    session: with a driver that returns a readable session whose [close]
    returns, both calls answer success, the handle ends empty and the
    driver has seen the attempt and then the close of the session it
    returned. *)
Theorem connect_then_disconnect d request w v t :
  vehicle w = None ->
  connect d (length (driver_calls w)) (connection_string w) true 60 = Val (Some v) ->
  baseline v = Val t ->
  close v = Val tt ->
  fst (connect_drone d request w) = Val (success_message "Connected to Vehicle") /\
  fst (disconnect_drone (snd (connect_drone d request w)))
    = Val (success_message "Disconnected") /\
  vehicle (serve d [Connect request; Disconnect] w) = None /\
  driver_calls (serve d [Connect request; Disconnect] w)
    = driver_calls w ++ [CallConnect (connection_string w) true 60;
                         CallClose (vid v)].
Proof.
  intros Hv Hr Hb Hc. simpl.
  rewrite (connect_drone_empty d request w Hv), Hr.
  rewrite (connect_resume_success v t _ Hb). simpl.
  unfold disconnect_drone, call_close, record_call, bind, lift, get_vehicle,
    set_vehicle, logging_info, emit, ret. simpl.
  rewrite Hc. simpl. rewrite <- app_assoc. auto.
Qed.

Lemma connect_then_disconnect_witness :
  driver_calls (serve sitl_driver [Connect None; Disconnect] init)
    = [CallConnect "udp:127.0.0.1:14550" true 60; CallClose 0].
Proof.
  apply (connect_then_disconnect sitl_driver None init (sitl 0)
           (PStr "STABILIZE", PBool false, PFloat (1 # 100)));
    reflexivity.
Defined.

(** ** Runs of requests *)

Lemma handle_keeps_unclosable d c w v e :
  vehicle w = Some v -> close v = Raise e ->
  vehicle (snd (handle d c w)) = Some v.
Proof.
  intros Hv Hc. destruct c as [request| |]; simpl.
  - rewrite (connect_drone_held d request w v Hv). exact Hv.
  - destruct w as [vh cs lg dc]; simpl in Hv; subst vh.
    unfold disconnect_drone, call_close, record_call, bind, lift, get_vehicle,
      logging_info, emit. simpl. rewrite Hc. reflexivity.
  - rewrite <- Hv. apply get_status_frame.
Qed.

(** If [close] of the held session raises whenever it is called, then
    after any sequence of Connect, Disconnect and Status requests served
    one after another the same session is still held. *)
Theorem unclosable_session_stays d cs w v e :
  vehicle w = Some v ->
  close v = Raise e ->
  vehicle (serve d cs w) = Some v.
Proof.
  revert w. induction cs as [|c cs IH]; intros w Hv Hc; simpl.
  - exact Hv.
  - apply IH; [|exact Hc].
    apply (handle_keeps_unclosable d c w v e Hv Hc).
Qed.

Lemma unclosable_session_stays_witness :
  vehicle (serve sitl_driver [Disconnect; Connect None; Status; Disconnect]
             (connected stuck))
    = Some stuck.
Proof.
  apply (unclosable_session_stays sitl_driver
           [Disconnect; Connect None; Status; Disconnect]
           (connected stuck) stuck link_down); reflexivity.
Defined.

(** While a handle is held, any sequence of Connect and Status requests
    served one after another keeps the held session and makes no driver
    call. *)
Theorem held_until_disconnect d cs w v :
  vehicle w = Some v ->
  forallb (fun c => negb (is_disconnect c)) cs = true ->
  vehicle (serve d cs w) = Some v /\
  driver_calls (serve d cs w) = driver_calls w.
Proof.
  intros Hv Hcs. exact (serve_without_disconnect d cs w v Hv Hcs).
Qed.

Lemma held_until_disconnect_witness :
  driver_calls (serve sitl_driver [Connect None; Status; Connect None]
                  (connected (sitl 0)))
    = [CallConnect "udp:127.0.0.1:14550" true 60].
Proof.
  apply (held_until_disconnect sitl_driver [Connect None; Status; Connect None]
           (connected (sitl 0)) (sitl 0)); reflexivity.
Defined.

Lemma disconnect_keeps_or_clears w v :
  vehicle (snd (disconnect_drone w)) = Some v -> vehicle w = Some v.
Proof.
  destruct w as [[vh|] cs lg dc];
    unfold disconnect_drone, call_close, record_call, bind, lift, get_vehicle,
      set_vehicle, logging_info, emit, ret; simpl.
  - destruct (close vh); simpl; [discriminate | auto].
  - discriminate.
Qed.

(** In every state the server can reach, a held handle is a session the
    driver itself returned: there is a recorded session-opening attempt to
    'udp:127.0.0.1:14550' whose answer was that session. *)
Theorem held_session_from_driver d w v :
  reachable d w ->
  vehicle w = Some v ->
  exists n,
    nth_error (driver_calls w) n
      = Some (CallConnect "udp:127.0.0.1:14550" true 60) /\
    connect d n "udp:127.0.0.1:14550" true 60 = Val (Some v).
Proof.
  intros Hr. revert v.
  induction Hr as [|c w Hr IH]; intros v Hv.
  - discriminate.
  - destruct (reachable_fixed d w Hr) as [Hcs _].
    destruct c as [request| |]; simpl in Hv |- *.
    + destruct (vehicle w) as [v0|] eqn:Hw.
      * rewrite (connect_drone_held d request w v0 Hw) in Hv |- *. simpl in *.
        rewrite Hw in Hv. apply IH. exact Hv.
      * rewrite (connect_drone_empty d request w Hw) in Hv |- *.
        destruct (attempt_dichotomy
                    (connect d (length (driver_calls w)) (connection_string w) true 60))
          as [Hf | (v1 & t & He & Hb)].
        -- destruct (connect_resume_failure _ (attempting w) Hf) as (_ & _ & _ & Hn).
           congruence.
        -- rewrite He in Hv |- *.
           rewrite (connect_resume_success v1 t _ Hb) in Hv |- *. simpl in *.
           injection Hv as <-. exists (length (driver_calls w)).
           rewrite Hcs in *. split; [|exact He].
           rewrite nth_error_app2, Nat.sub_diag; [reflexivity | apply Nat.le_refl].
    + destruct (IH v (disconnect_keeps_or_clears w v Hv)) as (n & Hn & Hc).
      destruct (disconnect_drone_frame w) as [_ Hd]. rewrite Hd.
      exists n. split; [|exact Hc].
      rewrite nth_error_app1; [exact Hn|].
      apply nth_error_Some. congruence.
    + destruct (get_status_frame w) as (Hg1 & _ & Hg3).
      rewrite Hg1 in Hv. rewrite Hg3. apply IH. exact Hv.
Qed.

Lemma held_session_from_driver_witness :
  exists n,
    nth_error (driver_calls (serve flaky_driver [Connect None; Connect None] init)) n
      = Some (CallConnect "udp:127.0.0.1:14550" true 60) /\
    connect flaky_driver n "udp:127.0.0.1:14550" true 60 = Val (Some (sitl 1)).
Proof.
  apply (held_session_from_driver flaky_driver
           (serve flaky_driver [Connect None; Connect None] init) (sitl 1)).
  - apply (reach_step flaky_driver (Connect None)).
    apply (reach_step flaky_driver (Connect None)).
    apply reach_init.
  - reflexivity.
Defined.

(** ** Replies and log records *)

Lemma connect_error_shape resp :
  connect_error resp ->
  json_get "status" (body resp) = Some (JStr "error") /\
  status_code resp = 500%Z /\
  exists m, json_get "message" (body resp) = Some (JStr m).
Proof. destruct 1; simpl; eauto. Qed.

(** The status field of a reply and its HTTP code agree, for the three
    handlers and in every state: a reply says "success" with code 200, or
    "error" with code 500 and a message. *)
Theorem reply_status_matches_code d c w resp :
  fst (handle d c w) = Val resp ->
  (json_get "status" (body resp) = Some (JStr "success") /\
   status_code resp = 200%Z) \/
  (json_get "status" (body resp) = Some (JStr "error") /\
   status_code resp = 500%Z /\
   exists m, json_get "message" (body resp) = Some (JStr m)).
Proof.
  destruct c as [request| |]; simpl.
  - destruct (vehicle w) as [v|] eqn:Hv.
    + rewrite (connect_drone_held d request w v Hv). simpl.
      intros H. injection H as <-. left. split; reflexivity.
    + destruct (connect_empty_outcome d request w Hv) as (_ & r & Hr & Hc).
      rewrite Hr. intros H. injection H as <-.
      destruct Hc as [-> | He].
      * left. split; reflexivity.
      * right. apply connect_error_shape. exact He.
  - destruct w as [[v|] cs lg dc];
      unfold disconnect_drone, call_close, record_call, bind, lift, get_vehicle,
        set_vehicle, logging_info, emit, ret; simpl.
    + destruct (close v); simpl; intros H; [|discriminate].
      injection H as <-. left. split; reflexivity.
    + intros H. injection H as <-. left. split; reflexivity.
  - destruct w as [[v|] cs lg dc];
      unfold get_status, bind, get_vehicle, try_except, lift, logging_error,
        emit, ret; simpl.
    + destruct (status_dict v); simpl; intros H; injection H as <-.
      * left. split; reflexivity.
      * right. simpl. eauto.
    + intros H. injection H as <-. left. split; reflexivity.
Qed.

Lemma reply_status_matches_code_witness :
  (json_get "status" (body (error_message "Connection timed out after 60 seconds."))
     = Some (JStr "success") /\
   status_code (error_message "Connection timed out after 60 seconds.") = 200%Z) \/
  (json_get "status" (body (error_message "Connection timed out after 60 seconds."))
     = Some (JStr "error") /\
   status_code (error_message "Connection timed out after 60 seconds.") = 500%Z /\
   exists m,
     json_get "message" (body (error_message "Connection timed out after 60 seconds."))
       = Some (JStr m)).
Proof.
  apply (reply_status_matches_code timeout_driver (Connect None) init).
  reflexivity.
Defined.

Lemma count_errors_app l l' :
  count_errors (l ++ l') = (count_errors l + count_errors l')%nat.
Proof. unfold count_errors. rewrite filter_app, length_app. reflexivity. Qed.

Lemma count_errors_info l m :
  count_errors (l ++ [{| level := INFO; message := m |}]) = count_errors l.
Proof. rewrite count_errors_app. unfold count_errors at 2. simpl. lia. Qed.

Lemma count_errors_error l m :
  count_errors (l ++ [{| level := ERROR; message := m |}]) = S (count_errors l).
Proof. rewrite count_errors_app. unfold count_errors at 2. simpl. lia. Qed.

#[local] Hint Rewrite count_errors_info count_errors_error : log_count.

Lemma connect_resume_errors r w :
  count_errors (log (snd (connect_resume r w)))
    = (count_errors (log w) + error_records_of (fst (connect_resume r w)))%nat.
Proof.
  unfold connect_resume, connect_except, try_except, bind, lift, set_vehicle,
    get_vehicle, logging_info, logging_error, emit, ret. simpl.
  destruct r as [[v|]|e]; simpl.
  - destruct (mode_name v) as [n|e1]; simpl.
    + destruct (armed v) as [a|e2]; simpl.
      * destruct (frame_field alt "alt" (PStr "N/A") v) as [h|e3]; simpl.
        -- count_log.
        -- destruct (is_APIException e3); [|destruct (is_TimeoutError e3)];
             count_log.
      * destruct (is_APIException e2); [|destruct (is_TimeoutError e2)];
          count_log.
    + destruct (is_APIException e1); [|destruct (is_TimeoutError e1)];
        count_log.
  - count_log.
  - destruct (is_APIException e); [|destruct (is_TimeoutError e)];
      count_log.
Qed.

(** A handler call writes an ERROR record exactly when it answers with code
    500, and then exactly one: the count of ERROR records in the log grows
    by one with a 500 reply and not at all with a 200 reply or with an
    exception that escapes. *)
Theorem error_logged_iff_500 d c w :
  count_errors (log (snd (handle d c w)))
    = (count_errors (log w) + error_records_of (fst (handle d c w)))%nat.
Proof.
  destruct c as [request| |]; simpl.
  - destruct (vehicle w) as [v|] eqn:Hv.
    + rewrite (connect_drone_held d request w v Hv). simpl.
      count_log.
    + rewrite (connect_drone_empty d request w Hv), connect_resume_errors.
      unfold attempting. count_log.
  - destruct w as [[v|] cs lg dc];
      unfold disconnect_drone, call_close, record_call, bind, lift, get_vehicle,
        set_vehicle, logging_info, emit, ret; simpl.
    + destruct (close v); count_log.
    + count_log.
  - destruct w as [[v|] cs lg dc];
      unfold get_status, bind, get_vehicle, try_except, lift, logging_error,
        emit, ret; simpl.
    + destruct (status_dict v); count_log.
    + lia.
Qed.
